(** * Item manager: the two FastAPI item stores

    The repository holds two near-duplicate CRUD services over an in-memory
    dictionary and a counter:

    - [Strict]  is [src/main.py]          (schema constraints [min_length=1],
                                           [gt=0]; records carry [is_active]);
    - [Lenient] is [src/backend/main.py]  (hand-written [price < 0] check;
                                           records carry [is_offer]).

    Python's [dict] keeps its keys unique and in insertion order, and
    [list(db.values())] exposes that order, so the store is an association
    list with the dictionary operations written out.  Identifiers are Python
    integers ([Z]); prices are IEEE doubles ([PrimFloat.float]).  A raised
    [HTTPException] is a response value; the [detail] text is left out.

    A route is its handler between two schemas.  A body that breaks a
    [Field] constraint is refused before the handler runs: the answer is 422,
    or 500 when the refused price cannot be echoed as JSON.  What the handler
    returns is validated against the route's [response_model] when that model
    carries constraints (the strict variant's [ItemInDB]); a record that
    fails it is answered 500, after the handler has done its work.  *)

From Stdlib Require Import ZArith List String Bool Lia PrimFloat.
Import ListNotations.
Local Open Scope Z_scope.

(** ** Python dictionaries keyed by integers *)

Section PyDict.
Context {V : Type}.

Definition dict := list (Z * V).

(** [d[k]], [None] standing for [KeyError]. *)
Fixpoint dict_get (d : dict) (k : Z) : option V :=
  match d with
  | [] => None
  | (k', v) :: d' => if Z.eqb k k' then Some v else dict_get d' k
  end.

(** [k in d] *)
Definition dict_contains (d : dict) (k : Z) : bool :=
  match dict_get d k with Some _ => true | None => false end.

(** [d[k] = v]: an existing key keeps its position, a new key goes last. *)
Fixpoint dict_set (d : dict) (k : Z) (v : V) : dict :=
  match d with
  | [] => [(k, v)]
  | (k', v') :: d' =>
      if Z.eqb k k' then (k', v) :: d' else (k', v') :: dict_set d' k v
  end.

(** [del d[k]] *)
Fixpoint dict_del (d : dict) (k : Z) : dict :=
  match d with
  | [] => []
  | (k', v') :: d' =>
      if Z.eqb k k' then dict_del d' k else (k', v') :: dict_del d' k
  end.

(** [list(d.keys())] and [list(d.values())] *)
Definition dict_keys (d : dict) : list Z := map fst d.
Definition dict_values (d : dict) : list V := map snd d.

End PyDict.

Arguments dict V : clear implicits.

(** The largest element of a list of identifiers, [0] for the empty list
    (identifiers start at 1). *)
Definition max_id (l : list Z) : Z := fold_right Z.max 0 l.

(** A field of an update body as [model_dump(exclude_unset=True)] sees it:
    absent from the request, sent as JSON [null], or sent with a value. *)
Inductive sent (A : Type) : Type :=
| Unset : sent A
| Null : sent A
| Val : A -> sent A.
Arguments Unset {A}.
Arguments Null {A}.
Arguments Val {A} _.

(** Status codes used by the handlers. *)
Definition HTTP_200_OK : Z := 200.
Definition HTTP_201_CREATED : Z := 201.
Definition HTTP_204_NO_CONTENT : Z := 204.
Definition HTTP_400_BAD_REQUEST : Z := 400.
Definition HTTP_404_NOT_FOUND : Z := 404.
(** FastAPI's answer to a body that fails its pydantic schema. *)
Definition HTTP_422_UNPROCESSABLE : Z := 422.
(** FastAPI's answer when the response cannot be produced. *)
Definition HTTP_500_INTERNAL_SERVER_ERROR : Z := 500.

(** ** Responses *)

Inductive body (I : Type) : Type :=
| Item (r : I)
| Items (l : list I)
| Message (s : string)
| NoContent.
Arguments Item {I} _.
Arguments Items {I} _.
Arguments Message {I} _.
Arguments NoContent {I}.

(** What the client gets: a handler's return value under the status code of
    its decorator, or the status code of an exception. *)
Inductive response (I : Type) : Type :=
| Response (status_code : Z) (content : body I)
| HTTPException (status_code : Z).
Arguments Response {I} _ _.
Arguments HTTPException {I} _.

Definition status {I} (r : response I) : Z :=
  match r with
  | Response s _ => s
  | HTTPException s => s
  end.

(** The record of a 201 response. *)
Definition created {I} (r : response I) : option I :=
  match r with
  | Response s (Item i) => if Z.eqb s HTTP_201_CREATED then Some i else None
  | _ => None
  end.

(** ** The strict variant: [src/main.py] *)

Module Strict.

Module ItemCreate.
Record t : Type := { name : string; description : option string; price : float }.

(** The schema's constraints: [name] has [min_length=1], [price] has [gt=0]
    (the comparison [price > 0], which neither a zero nor a NaN passes). *)
Definition valid (m : t) : bool :=
  Nat.leb 1 (String.length (name m)) && PrimFloat.ltb 0 (price m).

(** The status of the answer to a body that fails the schema.  The 422 lists
    the errors, each with the value it refuses, and is written with
    [json.dumps(..., allow_nan=False)]: a refused price that is NaN or an
    infinity cannot be written, and the answer is 500. *)
Definition rejection (m : t) : Z :=
  if PrimFloat.ltb 0 (price m) || PrimFloat.is_finite (price m)
  then HTTP_422_UNPROCESSABLE
  else HTTP_500_INTERNAL_SERVER_ERROR.
End ItemCreate.

Module ItemUpdate.
Record t : Type :=
  { name : sent string; description : sent string; price : sent float }.

(** The schema's constraint: [price], when a number, has [gt=0]. *)
Definition valid (m : t) : bool :=
  match price m with
  | Val p => PrimFloat.ltb 0 p
  | _ => true
  end.

(** The status of the answer to a body that fails the schema, as for
    [ItemCreate]. *)
Definition rejection (m : t) : Z :=
  match price m with
  | Val p =>
      if PrimFloat.ltb 0 p || PrimFloat.is_finite p
      then HTTP_422_UNPROCESSABLE
      else HTTP_500_INTERNAL_SERVER_ERROR
  | _ => HTTP_422_UNPROCESSABLE
  end.
End ItemUpdate.

(** The stored dictionary: the dump of an [ItemCreate] with the keys [id] and
    [is_active] added, which is also the shape of [ItemInDB]. *)
Module ItemInDB.
Record t : Type :=
  { name : string;
    description : option string;
    price : float;
    id : Z;
    is_active : bool }.

(** [ItemInDB] extends [ItemCreate] and so keeps its constraints: [name] has
    [min_length=1], [price] has [gt=0]. *)
Definition valid (m : t) : bool :=
  Nat.leb 1 (String.length (name m)) && PrimFloat.ltb 0 (price m).
End ItemInDB.

(** The module's globals [db] and [next_id]. *)
Record state : Type := { db : dict ItemInDB.t; next_id : Z }.

Definition init : state := {| db := []; next_id := 1 |}.

Definition create_item (item : ItemCreate.t) (st : state)
  : response ItemInDB.t * state :=
  let new_item_data :=
    {| ItemInDB.name := ItemCreate.name item;
       ItemInDB.description := ItemCreate.description item;
       ItemInDB.price := ItemCreate.price item;
       ItemInDB.id := next_id st;
       ItemInDB.is_active := true |} in
  let db1 := dict_set (db st) (next_id st) new_item_data in
  (Response HTTP_201_CREATED (Item new_item_data),
   {| db := db1; next_id := next_id st + 1 |}).

Definition read_all_items (st : state) : response ItemInDB.t * state :=
  (Response HTTP_200_OK (Items (dict_values (db st))), st).

Definition read_item (item_id : Z) (st : state) : response ItemInDB.t * state :=
  match dict_get (db st) item_id with
  | None => (HTTPException HTTP_404_NOT_FOUND, st)
  | Some item => (Response HTTP_200_OK (Item item), st)
  end.

(** The loop over [update_data.items()]: a key is assigned when it was sent
    and its value is not [None]. *)
Definition apply_updates (existing_item : ItemInDB.t) (update_data : ItemUpdate.t)
  : ItemInDB.t :=
  let e1 :=
    match ItemUpdate.name update_data with
    | Val v =>
        {| ItemInDB.name := v;
           ItemInDB.description := ItemInDB.description existing_item;
           ItemInDB.price := ItemInDB.price existing_item;
           ItemInDB.id := ItemInDB.id existing_item;
           ItemInDB.is_active := ItemInDB.is_active existing_item |}
    | _ => existing_item
    end in
  let e2 :=
    match ItemUpdate.description update_data with
    | Val v =>
        {| ItemInDB.name := ItemInDB.name e1;
           ItemInDB.description := Some v;
           ItemInDB.price := ItemInDB.price e1;
           ItemInDB.id := ItemInDB.id e1;
           ItemInDB.is_active := ItemInDB.is_active e1 |}
    | _ => e1
    end in
  match ItemUpdate.price update_data with
  | Val v =>
      {| ItemInDB.name := ItemInDB.name e2;
         ItemInDB.description := ItemInDB.description e2;
         ItemInDB.price := v;
         ItemInDB.id := ItemInDB.id e2;
         ItemInDB.is_active := ItemInDB.is_active e2 |}
  | _ => e2
  end.

Definition update_item (item_id : Z) (item_update : ItemUpdate.t) (st : state)
  : response ItemInDB.t * state :=
  match dict_get (db st) item_id with
  | None => (HTTPException HTTP_404_NOT_FOUND, st)
  | Some existing_item =>
      let existing_item := apply_updates existing_item item_update in
      (Response HTTP_200_OK (Item existing_item),
       {| db := dict_set (db st) item_id existing_item; next_id := next_id st |})
  end.

Definition delete_item (item_id : Z) (st : state) : response ItemInDB.t * state :=
  if dict_contains (db st) item_id
  then (Response HTTP_200_OK (Message "Item deleted"%string),
        {| db := dict_del (db st) item_id; next_id := next_id st |})
  else (HTTPException HTTP_404_NOT_FOUND, st).

(** The routes of the application, each with a body of the right shape (a
    body of another shape is answered 422 by the framework and is not a
    request here). *)
Inductive request : Type :=
| POST_items (item : ItemCreate.t)
| GET_items
| GET_item (item_id : Z)
| PUT_item (item_id : Z) (item_update : ItemUpdate.t)
| DELETE_item (item_id : Z).

(** The request side of a route: the body against its schema, then the
    handler.  A body that fails its schema does not reach the handler. *)
Definition dispatch (rq : request) (st : state) : response ItemInDB.t * state :=
  match rq with
  | POST_items item =>
      if ItemCreate.valid item then create_item item st
      else (HTTPException (ItemCreate.rejection item), st)
  | GET_items => read_all_items st
  | GET_item item_id => read_item item_id st
  | PUT_item item_id item_update =>
      if ItemUpdate.valid item_update then update_item item_id item_update st
      else (HTTPException (ItemUpdate.rejection item_update), st)
  | DELETE_item item_id => delete_item item_id st
  end.

(** [response_model=ItemInDB] and [response_model=List[ItemInDB]]: what the
    handler returned is validated against the model before it is sent, and a
    record that fails is answered 500.  An exception the handler raised is not
    a returned value and goes through. *)
Definition response_model (r : response ItemInDB.t) : response ItemInDB.t :=
  match r with
  | Response _ (Item i) =>
      if ItemInDB.valid i then r
      else HTTPException HTTP_500_INTERNAL_SERVER_ERROR
  | Response _ (Items l) =>
      if forallb ItemInDB.valid l then r
      else HTTPException HTTP_500_INTERNAL_SERVER_ERROR
  | _ => r
  end.

(** A route end to end.  The store is the one the handler left, whatever
    becomes of the answer.  DELETE declares no response model. *)
Definition serve (rq : request) (st : state) : response ItemInDB.t * state :=
  (match rq with
   | DELETE_item _ => fst (dispatch rq st)
   | _ => response_model (fst (dispatch rq st))
   end,
   snd (dispatch rq st)).

(** A session: the responses, oldest first, and the store it leaves. *)
Fixpoint run (rqs : list request) (st : state)
  : list (response ItemInDB.t) * state :=
  match rqs with
  | [] => ([], st)
  | rq :: rest =>
      let (r, st1) := serve rq st in
      let (rs, st2) := run rest st1 in
      (r :: rs, st2)
  end.

(** The identifiers handed out in a list of responses, oldest first. *)
Fixpoint assigned (rs : list (response ItemInDB.t)) : list Z :=
  match rs with
  | [] => []
  | r :: rest =>
      match created r with
      | Some i => ItemInDB.id i :: assigned rest
      | None => assigned rest
      end
  end.

End Strict.

Arguments Strict.serve : simpl never.

(** ** The lenient variant: [src/backend/main.py] *)

Module Lenient.

Module ItemCreate.
Record t : Type :=
  { name : string;
    description : option string;
    price : float;
    is_offer : option bool }.
End ItemCreate.

Module ItemUpdate.
Record t : Type :=
  { name : sent string;
    description : sent string;
    price : sent float;
    is_offer : sent bool }.
End ItemUpdate.

(** [ItemResponse] declares [name : str] and [price : float], but
    [copy(update=...)] stores what it is given without validating it, so at
    run time every attribute except [id] may hold [None]. *)
Module ItemResponse.
Record t : Type :=
  { id : Z;
    name : option string;
    description : option string;
    price : option float;
    is_offer : option bool }.
End ItemResponse.

Record state : Type := { db : dict ItemResponse.t; next_id : Z }.

Definition init : state := {| db := []; next_id := 1 |}.

(** [validate_item_data] on an [ItemCreate]: the status it raises, if any.
    (On an [ItemUpdate] the [isinstance] test fails and nothing is raised.) *)
Definition validate_item_data (item_data : ItemCreate.t) : option Z :=
  if PrimFloat.ltb (ItemCreate.price item_data) 0
  then Some HTTP_400_BAD_REQUEST
  else None.

Definition create_item (item : ItemCreate.t) (st : state)
  : response ItemResponse.t * state :=
  match validate_item_data item with
  | Some code => (HTTPException code, st)
  | None =>
      let new_id := next_id st in
      let next_id1 := next_id st + 1 in
      let response_item :=
        {| ItemResponse.id := new_id;
           ItemResponse.name := Some (ItemCreate.name item);
           ItemResponse.description := ItemCreate.description item;
           ItemResponse.price := Some (ItemCreate.price item);
           ItemResponse.is_offer := ItemCreate.is_offer item |} in
      (Response HTTP_201_CREATED (Item response_item),
       {| db := dict_set (db st) new_id response_item; next_id := next_id1 |})
  end.

Definition read_items (st : state) : response ItemResponse.t * state :=
  (Response HTTP_200_OK (Items (dict_values (db st))), st).

Definition read_item (item_id : Z) (st : state)
  : response ItemResponse.t * state :=
  match dict_get (db st) item_id with
  | None => (HTTPException HTTP_404_NOT_FOUND, st)
  | Some item => (Response HTTP_200_OK (Item item), st)
  end.

(** One entry of [update_data] applied by [copy(update=update_data)]: an
    unset field keeps the old value, a sent one replaces it, [null] included. *)
Definition updated {A} (old : option A) (new : sent A) : option A :=
  match new with
  | Unset => old
  | Null => None
  | Val v => Some v
  end.

Definition copy_update (existing_item : ItemResponse.t) (update_data : ItemUpdate.t)
  : ItemResponse.t :=
  {| ItemResponse.id := ItemResponse.id existing_item;
     ItemResponse.name :=
       updated (ItemResponse.name existing_item) (ItemUpdate.name update_data);
     ItemResponse.description :=
       updated (ItemResponse.description existing_item)
               (ItemUpdate.description update_data);
     ItemResponse.price :=
       updated (ItemResponse.price existing_item) (ItemUpdate.price update_data);
     ItemResponse.is_offer :=
       updated (ItemResponse.is_offer existing_item)
               (ItemUpdate.is_offer update_data) |}.

(** ['price' in update_data and update_data['price'] is not None], then
    [new_price < 0]. *)
Definition negative_price (item_update : ItemUpdate.t) : bool :=
  match ItemUpdate.price item_update with
  | Val new_price => PrimFloat.ltb new_price 0
  | _ => false
  end.

Definition update_item (item_id : Z) (item_update : ItemUpdate.t) (st : state)
  : response ItemResponse.t * state :=
  match dict_get (db st) item_id with
  | None => (HTTPException HTTP_404_NOT_FOUND, st)
  | Some existing_item =>
      if negative_price item_update
      then (HTTPException HTTP_400_BAD_REQUEST, st)
      else
        let updated_item := copy_update existing_item item_update in
        (Response HTTP_200_OK (Item updated_item),
         {| db := dict_set (db st) item_id updated_item; next_id := next_id st |})
  end.

Definition delete_item (item_id : Z) (st : state)
  : response ItemResponse.t * state :=
  if dict_contains (db st) item_id
  then (Response HTTP_204_NO_CONTENT NoContent,
        {| db := dict_del (db st) item_id; next_id := next_id st |})
  else (HTTPException HTTP_404_NOT_FOUND, st).

(** The routes, each with a body of the right shape.  Neither request
    schema carries a constraint, so every such body reaches its handler, and
    [ItemResponse], the response model, carries none either: what a handler
    returns is the answer. *)
Inductive request : Type :=
| POST_items (item : ItemCreate.t)
| GET_items
| GET_item (item_id : Z)
| PUT_item (item_id : Z) (item_update : ItemUpdate.t)
| DELETE_item (item_id : Z).

Definition serve (rq : request) (st : state) : response ItemResponse.t * state :=
  match rq with
  | POST_items item => create_item item st
  | GET_items => read_items st
  | GET_item item_id => read_item item_id st
  | PUT_item item_id item_update => update_item item_id item_update st
  | DELETE_item item_id => delete_item item_id st
  end.

Fixpoint run (rqs : list request) (st : state)
  : list (response ItemResponse.t) * state :=
  match rqs with
  | [] => ([], st)
  | rq :: rest =>
      let (r, st1) := serve rq st in
      let (rs, st2) := run rest st1 in
      (r :: rs, st2)
  end.

Fixpoint assigned (rs : list (response ItemResponse.t)) : list Z :=
  match rs with
  | [] => []
  | r :: rest =>
      match created r with
      | Some i => ItemResponse.id i :: assigned rest
      | None => assigned rest
      end
  end.

End Lenient.

(** ** Sample bodies, used by the examples below *)

Definition strict_widget : Strict.ItemCreate.t :=
  {| Strict.ItemCreate.name := "Widget"%string;
     Strict.ItemCreate.description := None;
     Strict.ItemCreate.price := 9.5%float |}.

Definition strict_bolt : Strict.ItemCreate.t :=
  {| Strict.ItemCreate.name := "Bolt"%string;
     Strict.ItemCreate.description := Some "M8"%string;
     Strict.ItemCreate.price := 0.25%float |}.

Definition strict_only_price (p : float) : Strict.ItemUpdate.t :=
  {| Strict.ItemUpdate.name := Unset;
     Strict.ItemUpdate.description := Unset;
     Strict.ItemUpdate.price := Val p |}.

Definition lenient_widget : Lenient.ItemCreate.t :=
  {| Lenient.ItemCreate.name := "Widget"%string;
     Lenient.ItemCreate.description := None;
     Lenient.ItemCreate.price := 9.5%float;
     Lenient.ItemCreate.is_offer := None |}.

Definition lenient_bolt : Lenient.ItemCreate.t :=
  {| Lenient.ItemCreate.name := "Bolt"%string;
     Lenient.ItemCreate.description := Some "M8"%string;
     Lenient.ItemCreate.price := 0.25%float;
     Lenient.ItemCreate.is_offer := Some false |}.


(** The update body [{"price": null}]. *)
Definition lenient_null_price : Lenient.ItemUpdate.t :=
  {| Lenient.ItemUpdate.name := Unset;
     Lenient.ItemUpdate.description := Unset;
     Lenient.ItemUpdate.price := Null;
     Lenient.ItemUpdate.is_offer := Unset |}.

(** The update body [{"description": "new"}]. *)
Definition lenient_only_description : Lenient.ItemUpdate.t :=
  {| Lenient.ItemUpdate.name := Unset;
     Lenient.ItemUpdate.description := Val "new"%string;
     Lenient.ItemUpdate.price := Unset;
     Lenient.ItemUpdate.is_offer := Unset |}.

(** The update body [{"name": ""}]. *)
Definition strict_empty_name : Strict.ItemUpdate.t :=
  {| Strict.ItemUpdate.name := Val EmptyString;
     Strict.ItemUpdate.description := Unset;
     Strict.ItemUpdate.price := Unset |}.


(** The update body [{"price": null}]. *)
Definition strict_null_price : Strict.ItemUpdate.t :=
  {| Strict.ItemUpdate.name := Unset;
     Strict.ItemUpdate.description := Unset;
     Strict.ItemUpdate.price := Null |}.


Definition lenient_only_price (p : float) : Lenient.ItemUpdate.t :=
  {| Lenient.ItemUpdate.name := Unset;
     Lenient.ItemUpdate.description := Unset;
     Lenient.ItemUpdate.price := Val p;
     Lenient.ItemUpdate.is_offer := Unset |}.

(** ** How a stored field relates to the field of an update body

    [kept_or_sent]: an absent or [null] field keeps the stored value, a value
    replaces it.  [kept_or_set]: an absent field keeps the stored value, a
    value replaces it and [null] clears it. *)

Definition kept_or_sent {A} (old new : A) (s : sent A) : Prop :=
  match s with
  | Val v => new = v
  | _ => new = old
  end.



(** ** Facts about the dictionary operations *)

Section PyDictFacts.
Context {V : Type}.
Implicit Types (d : dict V) (k : Z) (v : V).

Lemma dict_get_set_eq d k v : dict_get (dict_set d k v) k = Some v.
Proof.
  induction d as [|[k' v'] d IH]; simpl.
  - now rewrite Z.eqb_refl.
  - destruct (Z.eqb k k') eqn:E; simpl; rewrite E; auto.
Qed.

Lemma dict_get_set_ne d k k' v :
  k <> k' -> dict_get (dict_set d k v) k' = dict_get d k'.
Proof.
  intros Hne. induction d as [|[k0 v0] d IH]; simpl.
  - destruct (Z.eqb_spec k' k); congruence.
  - destruct (Z.eqb_spec k k0) as [->|]; simpl.
    + destruct (Z.eqb_spec k' k0); congruence.
    + now rewrite IH.
Qed.

Lemma dict_get_del_eq d k : dict_get (dict_del d k) k = None.
Proof.
  induction d as [|[k' v'] d IH]; simpl; auto.
  destruct (Z.eqb k k') eqn:E; simpl; auto. now rewrite E.
Qed.

Lemma dict_get_del_ne d k k' :
  k <> k' -> dict_get (dict_del d k) k' = dict_get d k'.
Proof.
  intros Hne. induction d as [|[k0 v0] d IH]; simpl; auto.
  destruct (Z.eqb_spec k k0) as [->|]; simpl.
  - destruct (Z.eqb_spec k' k0); congruence.
  - now rewrite IH.
Qed.

Lemma dict_contains_set d k k' v :
  dict_contains (dict_set d k v) k' = (Z.eqb k k' || dict_contains d k')%bool.
Proof.
  unfold dict_contains. destruct (Z.eqb_spec k k') as [->|Hne].
  - now rewrite dict_get_set_eq.
  - now rewrite dict_get_set_ne.
Qed.

Lemma dict_contains_del d k k' :
  dict_contains (dict_del d k) k' = (negb (Z.eqb k k') && dict_contains d k')%bool.
Proof.
  unfold dict_contains. destruct (Z.eqb_spec k k') as [->|Hne].
  - now rewrite dict_get_del_eq.
  - now rewrite dict_get_del_ne.
Qed.

Lemma dict_get_In d k v : dict_get d k = Some v -> In (k, v) d.
Proof.
  induction d as [|[k' v'] d IH]; simpl; [discriminate|].
  destruct (Z.eqb_spec k k') as [->|]; intros H.
  - left. congruence.
  - right. auto.
Qed.

Lemma dict_contains_keys d k : dict_contains d k = true <-> In k (dict_keys d).
Proof.
  unfold dict_contains. induction d as [|[k' v'] d IH]; simpl.
  - split; [discriminate|tauto].
  - destruct (Z.eqb_spec k k') as [->|Hne].
    + split; auto.
    + rewrite IH. split; [auto|]. intros [H|H]; [congruence|auto].
Qed.


(** A key that is not in the dictionary is added at the end. *)
Lemma dict_set_new d k v :
  dict_contains d k = false -> dict_set d k v = d ++ [(k, v)].
Proof.
  unfold dict_contains. induction d as [|[k' v'] d IH]; simpl; auto.
  destruct (Z.eqb k k'); [discriminate|]. intros H. now rewrite IH.
Qed.

(** Assigning to a key that is there moves nothing. *)
Lemma dict_keys_set_old d k v :
  dict_contains d k = true -> dict_keys (dict_set d k v) = dict_keys d.
Proof.
  unfold dict_contains, dict_keys. induction d as [|[k' v'] d IH]; simpl.
  - discriminate.
  - destruct (Z.eqb k k'); simpl; auto. intros H. now rewrite IH.
Qed.

Lemma dict_keys_del d k :
  dict_keys (dict_del d k) = filter (fun i => negb (Z.eqb k i)) (dict_keys d).
Proof.
  unfold dict_keys. induction d as [|[k' v'] d IH]; simpl; auto.
  destruct (Z.eqb k k'); simpl; now rewrite IH.
Qed.

Lemma Forall_dict_set (P : Z * V -> Prop) d k v :
  Forall P d -> P (k, v) -> Forall P (dict_set d k v).
Proof.
  intros Hd Hv. induction d as [|[k' v'] d IH]; simpl.
  - constructor; auto.
  - inversion Hd; subst.
    destruct (Z.eqb_spec k k') as [<-|]; constructor; auto.
Qed.

Lemma Forall_dict_del (P : Z * V -> Prop) d k :
  Forall P d -> Forall P (dict_del d k).
Proof.
  intros Hd. induction d as [|[k' v'] d IH]; simpl; auto.
  inversion Hd; subst. destruct (Z.eqb k k'); auto.
Qed.

End PyDictFacts.


Lemma max_id_ge l x : In x l -> x <= max_id l.
Proof.
  induction l as [|a l IH]; simpl; [tauto|].
  intros [->|H]; [lia|]. specialize (IH H). lia.
Qed.

Lemma max_id_app l x : max_id (l ++ [x]) = Z.max (max_id l) x.
Proof. induction l as [|a l IH]; simpl; [lia|]. rewrite IH. lia. Qed.


Lemma filter_ext_in_bool {A} (f g : A -> bool) l :
  (forall x, In x l -> f x = g x) -> filter f l = filter g l.
Proof.
  induction l as [|a l IH]; simpl; intros H; auto.
  rewrite (H a) by now left. rewrite IH; auto.
Qed.

(** ** The keys of the store against the history of assigned identifiers

    [hist] lists the identifiers handed out so far, oldest first.  The store
    keeps, in that order, those that have not been deleted. *)

Section KeysAgainstHistory.
Context {V : Type}.
Implicit Types (d : dict V) (hist : list Z).

Definition keys_follow hist d : Prop :=
  dict_keys d = filter (dict_contains d) hist.

Lemma keys_follow_incl hist d : keys_follow hist d -> incl (dict_keys d) hist.
Proof.
  unfold keys_follow. intros H x Hx. rewrite H in Hx.
  now apply filter_In in Hx.
Qed.

Lemma keys_follow_NoDup hist d :
  NoDup hist -> keys_follow hist d -> NoDup (dict_keys d).
Proof. unfold keys_follow. intros Hnd ->. now apply NoDup_filter. Qed.

Lemma keys_follow_new hist d n v :
  keys_follow hist d -> ~ In n hist ->
  keys_follow (hist ++ [n]) (dict_set d n v).
Proof.
  intros H Hn. unfold keys_follow.
  assert (Hc : dict_contains d n = false).
  { destruct (dict_contains d n) eqn:E; auto.
    exfalso. apply Hn, (keys_follow_incl _ _ H). now apply dict_contains_keys. }
  rewrite (dict_set_new _ _ _ Hc) at 1. unfold dict_keys at 1.
  rewrite map_app, filter_app. simpl.
  rewrite dict_contains_set, Z.eqb_refl. simpl. f_equal.
  fold (dict_keys d). rewrite H. apply filter_ext_in_bool.
  intros x Hx. rewrite dict_contains_set.
  destruct (Z.eqb_spec n x); [congruence|reflexivity].
Qed.

Lemma keys_follow_old hist d k v :
  keys_follow hist d -> dict_contains d k = true ->
  keys_follow hist (dict_set d k v).
Proof.
  unfold keys_follow. intros H Hk. rewrite dict_keys_set_old by assumption.
  rewrite H. apply filter_ext_in_bool. intros x _.
  rewrite dict_contains_set. destruct (Z.eqb_spec k x) as [<-|]; simpl; auto.
Qed.

Lemma keys_follow_del hist d k :
  keys_follow hist d -> keys_follow hist (dict_del d k).
Proof.
  unfold keys_follow. intros H. rewrite dict_keys_del, H.
  clear H. induction hist as [|a hist IH]; simpl; auto.
  rewrite dict_contains_del.
  destruct (dict_contains d a); simpl.
  - destruct (Z.eqb k a); simpl; now rewrite IH.
  - rewrite andb_false_r. apply IH.
Qed.

End KeysAgainstHistory.

(** ** The strict variant: what every reachable store satisfies *)

Record strict_inv (hist : list Z) (st : Strict.state) : Prop :=
  { strict_inv_next : Strict.next_id st = 1 + max_id hist;
    strict_inv_nodup : NoDup hist;
    strict_inv_keys : keys_follow hist (Strict.db st);
    strict_inv_ids :
      Forall (fun kv => Strict.ItemInDB.id (snd kv) = fst kv) (Strict.db st);
    strict_inv_active :
      Forall (fun kv => Strict.ItemInDB.is_active (snd kv) = true) (Strict.db st) }.

Lemma strict_inv_init : strict_inv [] Strict.init.
Proof. split; simpl; constructor. Qed.

Lemma fresh_above_max hist n : max_id hist < n -> ~ In n hist.
Proof. intros Hlt Hin. apply max_id_ge in Hin. lia. Qed.

Lemma NoDup_snoc (hist : list Z) n : NoDup hist -> ~ In n hist -> NoDup (hist ++ [n]).
Proof.
  intros Hnd Hn. induction Hnd as [|a l Ha Hnd IH]; simpl.
  - repeat constructor. simpl. tauto.
  - constructor.
    + rewrite in_app_iff. simpl. intros [H|[H|[]]]; [tauto|].
      apply Hn. now left.
    + apply IH. intros H. apply Hn. now right.
Qed.

Lemma strict_apply_updates_id e u :
  Strict.ItemInDB.id (Strict.apply_updates e u) = Strict.ItemInDB.id e.
Proof.
  unfold Strict.apply_updates.
  destruct (Strict.ItemUpdate.name u), (Strict.ItemUpdate.description u),
    (Strict.ItemUpdate.price u); reflexivity.
Qed.

Lemma strict_apply_updates_is_active e u :
  Strict.ItemInDB.is_active (Strict.apply_updates e u) = Strict.ItemInDB.is_active e.
Proof.
  unfold Strict.apply_updates.
  destruct (Strict.ItemUpdate.name u), (Strict.ItemUpdate.description u),
    (Strict.ItemUpdate.price u); reflexivity.
Qed.

Lemma strict_create_item_inv hist st item :
  strict_inv hist st ->
  strict_inv (hist ++ [Strict.next_id st]) (snd (Strict.create_item item st)).
Proof.
  intros [Hn Hnd Hk Hi Ha].
  assert (Hfresh : ~ In (Strict.next_id st) hist)
    by (apply fresh_above_max; lia).
  split; cbn [Strict.create_item snd Strict.next_id Strict.db].
  - rewrite max_id_app. lia.
  - now apply NoDup_snoc.
  - now apply keys_follow_new.
  - now apply Forall_dict_set.
  - now apply Forall_dict_set.
Qed.

Lemma strict_update_item_inv hist st item_id u :
  strict_inv hist st -> strict_inv hist (snd (Strict.update_item item_id u st)).
Proof.
  intros Hinv. unfold Strict.update_item.
  destruct (dict_get (Strict.db st) item_id) as [e|] eqn:E; [|exact Hinv].
  destruct Hinv as [Hn Hnd Hk Hi Ha].
  pose proof (dict_get_In _ _ _ E) as Hin.
  rewrite Forall_forall in Hi, Ha.
  split; simpl; auto.
  - apply keys_follow_old; auto. unfold dict_contains. now rewrite E.
  - apply Forall_dict_set; [now apply Forall_forall|]. simpl.
    rewrite strict_apply_updates_id. apply (Hi _ Hin).
  - apply Forall_dict_set; [now apply Forall_forall|]. simpl.
    rewrite strict_apply_updates_is_active. apply (Ha _ Hin).
Qed.

Lemma strict_delete_item_inv hist st item_id :
  strict_inv hist st -> strict_inv hist (snd (Strict.delete_item item_id st)).
Proof.
  intros Hinv. unfold Strict.delete_item.
  destruct (dict_contains (Strict.db st) item_id); [|exact Hinv].
  destruct Hinv as [Hn Hnd Hk Hi Ha].
  split; simpl; auto using keys_follow_del, Forall_dict_del.
Qed.

(** The strict route against its request side: the store is the one the
    request side leaves, and the response model turns no answer into a 201 nor
    a 201 into anything else (a created record has the name and the price of
    a body that passed the same constraints). *)
Lemma strict_serve_snd rq st :
  snd (Strict.serve rq st) = snd (Strict.dispatch rq st).
Proof. reflexivity. Qed.

Lemma strict_created_valid item st :
  Strict.ItemCreate.valid item = true ->
  Strict.response_model (fst (Strict.create_item item st))
  = fst (Strict.create_item item st).
Proof.
  intros Hv. unfold Strict.create_item. cbn [fst Strict.response_model].
  unfold Strict.ItemInDB.valid. cbn [Strict.ItemInDB.name Strict.ItemInDB.price].
  unfold Strict.ItemCreate.valid in Hv. now rewrite Hv.
Qed.

Lemma strict_serve_post_valid item st :
  Strict.ItemCreate.valid item = true ->
  Strict.serve (Strict.POST_items item) st = Strict.create_item item st.
Proof.
  intros Hv. unfold Strict.serve. cbn [Strict.dispatch]. rewrite Hv.
  rewrite (strict_created_valid _ _ Hv). now destruct (Strict.create_item item st).
Qed.

Lemma strict_serve_post_invalid item st :
  Strict.ItemCreate.valid item = false ->
  Strict.serve (Strict.POST_items item) st
  = (HTTPException (Strict.ItemCreate.rejection item), st).
Proof. intros Hv. unfold Strict.serve. cbn [Strict.dispatch]. now rewrite Hv. Qed.

Lemma strict_serve_put_invalid item_id u st :
  Strict.ItemUpdate.valid u = false ->
  Strict.serve (Strict.PUT_item item_id u) st
  = (HTTPException (Strict.ItemUpdate.rejection u), st).
Proof. intros Hv. unfold Strict.serve. cbn [Strict.dispatch]. now rewrite Hv. Qed.

Lemma strict_serve_put_valid item_id u st :
  Strict.ItemUpdate.valid u = true ->
  Strict.serve (Strict.PUT_item item_id u) st
  = (Strict.response_model (fst (Strict.update_item item_id u st)),
     snd (Strict.update_item item_id u st)).
Proof. intros Hv. unfold Strict.serve. cbn [Strict.dispatch]. now rewrite Hv. Qed.

Lemma strict_serve_delete item_id st :
  Strict.serve (Strict.DELETE_item item_id) st = Strict.delete_item item_id st.
Proof.
  unfold Strict.serve. cbn [Strict.dispatch].
  now destruct (Strict.delete_item item_id st).
Qed.

Lemma strict_serve_get_item item_id st :
  Strict.serve (Strict.GET_item item_id) st
  = (Strict.response_model (fst (Strict.read_item item_id st)), st).
Proof.
  unfold Strict.serve. cbn [Strict.dispatch]. unfold Strict.read_item.
  now destruct (dict_get (Strict.db st) item_id).
Qed.

Lemma created_not_201 {I} s (b : body I) :
  s <> HTTP_201_CREATED -> created (Response s b) = None.
Proof.
  intros Hs. unfold created. destruct b; auto.
  destruct (Z.eqb_spec s HTTP_201_CREATED); [contradiction|reflexivity].
Qed.

Lemma strict_response_model_200 b :
  created (Strict.response_model (Response HTTP_200_OK b)) = None.
Proof.
  destruct b as [i|l|m|]; cbn [Strict.response_model]; try reflexivity.
  - destruct (Strict.ItemInDB.valid i); reflexivity.
  - destruct (forallb Strict.ItemInDB.valid l); reflexivity.
Qed.

Lemma strict_serve_created rq st :
  created (fst (Strict.serve rq st)) = created (fst (Strict.dispatch rq st)).
Proof.
  destruct rq as [item| |item_id|item_id u|item_id].
  - destruct (Strict.ItemCreate.valid item) eqn:Hv.
    + rewrite (strict_serve_post_valid _ _ Hv). cbn [Strict.dispatch].
      now rewrite Hv.
    + rewrite (strict_serve_post_invalid _ _ Hv). cbn [Strict.dispatch].
      now rewrite Hv.
  - unfold Strict.serve. cbn [fst Strict.dispatch Strict.read_all_items].
    now rewrite strict_response_model_200.
  - rewrite strict_serve_get_item. cbn [fst Strict.dispatch].
    unfold Strict.read_item.
    destruct (dict_get (Strict.db st) item_id); cbn [fst]; [|reflexivity].
    now rewrite strict_response_model_200.
  - destruct (Strict.ItemUpdate.valid u) eqn:Hv.
    + rewrite (strict_serve_put_valid _ _ _ Hv). cbn [fst Strict.dispatch].
      rewrite Hv. unfold Strict.update_item.
      destruct (dict_get (Strict.db st) item_id); cbn [fst]; [|reflexivity].
      now rewrite strict_response_model_200.
    + rewrite (strict_serve_put_invalid _ _ _ Hv). cbn [Strict.dispatch].
      now rewrite Hv.
  - now rewrite strict_serve_delete.
Qed.

Lemma strict_dispatch_inv hist st rq :
  strict_inv hist st ->
  strict_inv (hist ++ Strict.assigned [fst (Strict.dispatch rq st)])
             (snd (Strict.dispatch rq st)).
Proof.
  intros Hinv.
  destruct rq as [item| |item_id|item_id u|item_id]; simpl Strict.dispatch.
  - destruct (Strict.ItemCreate.valid item).
    + now apply strict_create_item_inv.
    + simpl. now rewrite app_nil_r.
  - simpl. now rewrite app_nil_r.
  - unfold Strict.read_item.
    destruct (dict_get (Strict.db st) item_id); simpl; now rewrite app_nil_r.
  - assert (Hnone : Strict.assigned
              [fst (if Strict.ItemUpdate.valid u
                    then Strict.update_item item_id u st
                    else (HTTPException (Strict.ItemUpdate.rejection u), st))] = []).
    { unfold Strict.update_item.
      destruct (Strict.ItemUpdate.valid u); [|reflexivity].
      destruct (dict_get (Strict.db st) item_id); reflexivity. }
    rewrite Hnone, app_nil_r.
    destruct (Strict.ItemUpdate.valid u); [|exact Hinv].
    now apply strict_update_item_inv.
  - assert (Hnone : Strict.assigned [fst (Strict.delete_item item_id st)] = []).
    { unfold Strict.delete_item.
      destruct (dict_contains (Strict.db st) item_id); reflexivity. }
    rewrite Hnone, app_nil_r. now apply strict_delete_item_inv.
Qed.

Lemma strict_serve_inv hist st rq :
  strict_inv hist st ->
  strict_inv (hist ++ Strict.assigned [fst (Strict.serve rq st)])
             (snd (Strict.serve rq st)).
Proof.
  intros Hinv. rewrite strict_serve_snd. cbn [Strict.assigned].
  rewrite strict_serve_created. now apply strict_dispatch_inv.
Qed.

Lemma strict_assigned_cons r rs :
  Strict.assigned (r :: rs) = Strict.assigned [r] ++ Strict.assigned rs.
Proof. simpl. destruct (created r); reflexivity. Qed.

Lemma strict_run_inv rqs : forall hist st,
  strict_inv hist st ->
  strict_inv (hist ++ Strict.assigned (fst (Strict.run rqs st)))
             (snd (Strict.run rqs st)).
Proof.
  induction rqs as [|rq rqs IH]; intros hist st Hinv; cbn [Strict.run].
  - simpl. now rewrite app_nil_r.
  - pose proof (strict_serve_inv hist st rq Hinv) as Hstep.
    destruct (Strict.serve rq st) as [r st1]. cbn [fst snd] in Hstep.
    specialize (IH _ _ Hstep).
    destruct (Strict.run rqs st1) as [rs st2]. cbn [fst snd] in *.
    rewrite strict_assigned_cons, app_assoc. exact IH.
Qed.

Lemma strict_reachable_inv rqs :
  strict_inv (Strict.assigned (fst (Strict.run rqs Strict.init)))
             (snd (Strict.run rqs Strict.init)).
Proof. apply (strict_run_inv rqs [] Strict.init), strict_inv_init. Qed.

(** ** The lenient variant: what every reachable store satisfies *)

Record lenient_inv (hist : list Z) (st : Lenient.state) : Prop :=
  { lenient_inv_next : Lenient.next_id st = 1 + max_id hist;
    lenient_inv_nodup : NoDup hist;
    lenient_inv_keys : keys_follow hist (Lenient.db st);
    lenient_inv_ids :
      Forall (fun kv => Lenient.ItemResponse.id (snd kv) = fst kv) (Lenient.db st) }.

Lemma lenient_inv_init : lenient_inv [] Lenient.init.
Proof. split; simpl; constructor. Qed.

Lemma lenient_create_item_inv hist st item :
  Lenient.validate_item_data item = None ->
  lenient_inv hist st ->
  lenient_inv (hist ++ [Lenient.next_id st]) (snd (Lenient.create_item item st)).
Proof.
  intros Hv [Hn Hnd Hk Hi]. unfold Lenient.create_item. rewrite Hv.
  assert (Hfresh : ~ In (Lenient.next_id st) hist)
    by (apply fresh_above_max; lia).
  split; cbn [snd Lenient.next_id Lenient.db].
  - rewrite max_id_app. lia.
  - now apply NoDup_snoc.
  - now apply keys_follow_new.
  - now apply Forall_dict_set.
Qed.

Lemma lenient_update_item_inv hist st item_id u :
  lenient_inv hist st -> lenient_inv hist (snd (Lenient.update_item item_id u st)).
Proof.
  intros Hinv. unfold Lenient.update_item.
  destruct (dict_get (Lenient.db st) item_id) as [e|] eqn:E; [|exact Hinv].
  destruct (Lenient.negative_price u); [exact Hinv|].
  destruct Hinv as [Hn Hnd Hk Hi].
  pose proof (dict_get_In _ _ _ E) as Hin.
  rewrite Forall_forall in Hi.
  split; simpl; auto.
  - apply keys_follow_old; auto. unfold dict_contains. now rewrite E.
  - apply Forall_dict_set; [now apply Forall_forall|]. simpl.
    apply (Hi _ Hin).
Qed.

Lemma lenient_delete_item_inv hist st item_id :
  lenient_inv hist st -> lenient_inv hist (snd (Lenient.delete_item item_id st)).
Proof.
  intros Hinv. unfold Lenient.delete_item.
  destruct (dict_contains (Lenient.db st) item_id); [|exact Hinv].
  destruct Hinv as [Hn Hnd Hk Hi].
  split; simpl; auto using keys_follow_del, Forall_dict_del.
Qed.

Lemma lenient_serve_inv hist st rq :
  lenient_inv hist st ->
  lenient_inv (hist ++ Lenient.assigned [fst (Lenient.serve rq st)])
              (snd (Lenient.serve rq st)).
Proof.
  intros Hinv. destruct rq as [item| |item_id|item_id u|item_id]; simpl Lenient.serve.
  - destruct (Lenient.validate_item_data item) as [code|] eqn:Hv.
    + unfold Lenient.create_item. rewrite Hv. simpl. now rewrite app_nil_r.
    + pose proof (lenient_create_item_inv hist st item Hv Hinv) as H.
      unfold Lenient.create_item in *. rewrite Hv in *. exact H.
  - simpl. now rewrite app_nil_r.
  - unfold Lenient.read_item.
    destruct (dict_get (Lenient.db st) item_id); simpl; now rewrite app_nil_r.
  - assert (Hnone : Lenient.assigned [fst (Lenient.update_item item_id u st)] = []).
    { unfold Lenient.update_item.
      destruct (dict_get (Lenient.db st) item_id); [|reflexivity].
      destruct (Lenient.negative_price u); reflexivity. }
    rewrite Hnone, app_nil_r. now apply lenient_update_item_inv.
  - assert (Hnone : Lenient.assigned [fst (Lenient.delete_item item_id st)] = []).
    { unfold Lenient.delete_item.
      destruct (dict_contains (Lenient.db st) item_id); reflexivity. }
    rewrite Hnone, app_nil_r. now apply lenient_delete_item_inv.
Qed.

Lemma lenient_assigned_cons r rs :
  Lenient.assigned (r :: rs) = Lenient.assigned [r] ++ Lenient.assigned rs.
Proof. simpl. destruct (created r); reflexivity. Qed.

Lemma lenient_run_inv rqs : forall hist st,
  lenient_inv hist st ->
  lenient_inv (hist ++ Lenient.assigned (fst (Lenient.run rqs st)))
              (snd (Lenient.run rqs st)).
Proof.
  induction rqs as [|rq rqs IH]; intros hist st Hinv; simpl.
  - now rewrite app_nil_r.
  - pose proof (lenient_serve_inv hist st rq Hinv) as Hstep.
    destruct (Lenient.serve rq st) as [r st1]. cbn [fst snd] in Hstep.
    specialize (IH _ _ Hstep).
    destruct (Lenient.run rqs st1) as [rs st2]. cbn [fst snd] in *.
    rewrite lenient_assigned_cons, app_assoc. exact IH.
Qed.

Lemma lenient_reachable_inv rqs :
  lenient_inv (Lenient.assigned (fst (Lenient.run rqs Lenient.init)))
              (snd (Lenient.run rqs Lenient.init)).
Proof. apply (lenient_run_inv rqs [] Lenient.init), lenient_inv_init. Qed.

(** ** Identifiers *)







(** ** Updates *)

(** C2: in the lenient variant an update whose body is [{"price": null}]
    replaces the stored price 9.5 by [None]; the strict variant, given the same
    body, keeps the stored price. *)
Theorem lenient_null_price_overwrites_price :
  (let st := snd (Lenient.run [Lenient.POST_items lenient_widget] Lenient.init) in
   let st1 := snd (Lenient.serve (Lenient.PUT_item 1 lenient_null_price) st) in
   option_map Lenient.ItemResponse.price (dict_get (Lenient.db st) 1)
     = Some (Some 9.5%float) /\
   option_map Lenient.ItemResponse.price (dict_get (Lenient.db st1) 1)
     = Some None)
  /\
  (let st := snd (Strict.run [Strict.POST_items strict_widget] Strict.init) in
   let st1 := snd (Strict.serve (Strict.PUT_item 1 strict_null_price) st) in
   option_map Strict.ItemInDB.price (dict_get (Strict.db st1) 1) = Some 9.5%float).
Proof. repeat split; vm_compute; reflexivity. Qed.

Lemma strict_apply_updates_fields e u :
  kept_or_sent (Strict.ItemInDB.name e)
    (Strict.ItemInDB.name (Strict.apply_updates e u)) (Strict.ItemUpdate.name u) /\
  kept_or_sent (Strict.ItemInDB.description e)
    (Strict.ItemInDB.description (Strict.apply_updates e u))
    (match Strict.ItemUpdate.description u with
     | Val v => Val (Some v) | Null => Null | Unset => Unset end) /\
  kept_or_sent (Strict.ItemInDB.price e)
    (Strict.ItemInDB.price (Strict.apply_updates e u)) (Strict.ItemUpdate.price u).
Proof.
  unfold Strict.apply_updates.
  destruct (Strict.ItemUpdate.name u), (Strict.ItemUpdate.description u),
    (Strict.ItemUpdate.price u); simpl; auto.
Qed.


Lemma strict_update_valid_iff u :
  Strict.ItemUpdate.valid u = true <->
  (forall p, Strict.ItemUpdate.price u = Val p -> PrimFloat.ltb 0 p = true).
Proof.
  unfold Strict.ItemUpdate.valid.
  destruct (Strict.ItemUpdate.price u) as [| |q]; split; auto; try discriminate.
  intros H p [= <-]. exact H.
Qed.




Lemma strict_rejection_finite u p :
  Strict.ItemUpdate.price u = Val p ->
  PrimFloat.is_finite p = true ->
  Strict.ItemUpdate.rejection u = 422.
Proof.
  intros Hp Hf. unfold Strict.ItemUpdate.rejection. rewrite Hp, Hf.
  now rewrite orb_true_r.
Qed.




(** ** Validation of a Create *)




(** ** Unknown identifiers *)

(** C5 (as amended): when the id is not in the store, Get and Delete are
    answered 404, and so is Update in the lenient variant and, in the strict
    variant, every Update whose body passes the schema; a strict Update whose
    price is not above 0 is refused by the schema before the id is looked up
    (422 when that price is a finite number).  In every case the mapping and
    the counter are left as they were. *)
Theorem unknown_id_is_404_and_store_unchanged :
  (forall st item_id,
      dict_contains (Strict.db st) item_id = false ->
      Strict.serve (Strict.GET_item item_id) st = (HTTPException 404, st) /\
      Strict.serve (Strict.DELETE_item item_id) st = (HTTPException 404, st) /\
      (forall u,
          (forall p, Strict.ItemUpdate.price u = Val p -> PrimFloat.ltb 0 p = true) ->
          Strict.serve (Strict.PUT_item item_id u) st = (HTTPException 404, st)) /\
      (forall u p,
          Strict.ItemUpdate.price u = Val p -> PrimFloat.ltb 0 p = false ->
          snd (Strict.serve (Strict.PUT_item item_id u) st) = st /\
          (PrimFloat.is_finite p = true ->
           fst (Strict.serve (Strict.PUT_item item_id u) st) = HTTPException 422)))
  /\
  (forall st item_id,
      dict_contains (Lenient.db st) item_id = false ->
      Lenient.serve (Lenient.GET_item item_id) st = (HTTPException 404, st) /\
      (forall u, Lenient.serve (Lenient.PUT_item item_id u) st
                 = (HTTPException 404, st)) /\
      Lenient.serve (Lenient.DELETE_item item_id) st = (HTTPException 404, st)).
Proof.
  split; intros st item_id Hc.
  - assert (Hg : dict_get (Strict.db st) item_id = None).
    { unfold dict_contains in Hc.
      destruct (dict_get (Strict.db st) item_id); [discriminate|reflexivity]. }
    split; [|split; [|split]].
    + rewrite strict_serve_get_item. unfold Strict.read_item. now rewrite Hg.
    + rewrite strict_serve_delete. unfold Strict.delete_item. now rewrite Hc.
    + intros u Hok. apply strict_update_valid_iff in Hok.
      rewrite (strict_serve_put_valid _ _ _ Hok). unfold Strict.update_item.
      now rewrite Hg.
    + intros u p Hp Hbad.
      assert (Hv : Strict.ItemUpdate.valid u = false)
        by (unfold Strict.ItemUpdate.valid; now rewrite Hp).
      rewrite (strict_serve_put_invalid _ _ _ Hv). cbn [fst snd].
      split; [reflexivity|]. intros Hf.
      now rewrite (strict_rejection_finite _ _ Hp Hf).
  - assert (Hg : dict_get (Lenient.db st) item_id = None).
    { unfold dict_contains in Hc.
      destruct (dict_get (Lenient.db st) item_id); [discriminate|reflexivity]. }
    cbn [Lenient.serve]. repeat split.
    + unfold Lenient.read_item. now rewrite Hg.
    + intros u. unfold Lenient.update_item. now rewrite Hg.
    + unfold Lenient.delete_item. now rewrite Hc.
Qed.

Lemma unknown_id_is_404_and_store_unchanged_witness :
  Strict.serve (Strict.GET_item 7)
    (snd (Strict.run [Strict.POST_items strict_widget] Strict.init))
  = (HTTPException 404,
     snd (Strict.run [Strict.POST_items strict_widget] Strict.init)) /\
  Strict.serve (Strict.PUT_item 7 (strict_only_price 2%float))
    (snd (Strict.run [Strict.POST_items strict_widget] Strict.init))
  = (HTTPException 404,
     snd (Strict.run [Strict.POST_items strict_widget] Strict.init)) /\
  Lenient.serve (Lenient.DELETE_item 7)
    (snd (Lenient.run [Lenient.POST_items lenient_widget] Lenient.init))
  = (HTTPException 404,
     snd (Lenient.run [Lenient.POST_items lenient_widget] Lenient.init)).
Proof.
  split; [|split].
  - apply (proj1 unknown_id_is_404_and_store_unchanged
             (snd (Strict.run [Strict.POST_items strict_widget] Strict.init)) 7).
    vm_compute. reflexivity.
  - destruct (proj1 unknown_id_is_404_and_store_unchanged
                (snd (Strict.run [Strict.POST_items strict_widget] Strict.init)) 7)
      as (_ & _ & H & _).
    + vm_compute. reflexivity.
    + apply H. intros p [= <-]. vm_compute. reflexivity.
  - apply (proj2 unknown_id_is_404_and_store_unchanged
             (snd (Lenient.run [Lenient.POST_items lenient_widget] Lenient.init)) 7).
    vm_compute. reflexivity.
Defined.

(** C5 as stated fails in the strict variant: with item 1 alone in the
    store, an update of the unknown id 7 with the price -1 is answered 422,
    not 404. *)
Lemma strict_unknown_id_bad_price_is_422 :
  let st := snd (Strict.run [Strict.POST_items strict_widget] Strict.init) in
  dict_contains (Strict.db st) 7 = false /\
  Strict.serve (Strict.PUT_item 7 (strict_only_price (-1)%float)) st
  = (HTTPException 422, st).
Proof. split; vm_compute; reflexivity. Qed.

(** ** Delete then Get, Create then Get *)

(** C6: deleting an id that is in the store succeeds (200 with a message in
    the strict variant, 204 in the lenient one), and a Get on the same id
    right after it is answered 404. *)
Theorem get_after_delete_is_404 :
  (forall st item_id,
      dict_contains (Strict.db st) item_id = true ->
      status (fst (Strict.serve (Strict.DELETE_item item_id) st)) = 200 /\
      fst (Strict.serve (Strict.GET_item item_id)
             (snd (Strict.serve (Strict.DELETE_item item_id) st)))
      = HTTPException 404)
  /\
  (forall st item_id,
      dict_contains (Lenient.db st) item_id = true ->
      status (fst (Lenient.serve (Lenient.DELETE_item item_id) st)) = 204 /\
      fst (Lenient.serve (Lenient.GET_item item_id)
             (snd (Lenient.serve (Lenient.DELETE_item item_id) st)))
      = HTTPException 404).
Proof.
  split; intros st item_id Hc; simpl.
  - unfold Strict.delete_item. rewrite Hc. simpl. split; [reflexivity|].
    unfold Strict.read_item. simpl. now rewrite dict_get_del_eq.
  - unfold Lenient.delete_item. rewrite Hc. simpl. split; [reflexivity|].
    unfold Lenient.read_item. simpl. now rewrite dict_get_del_eq.
Qed.

Lemma get_after_delete_is_404_witness :
  fst (Strict.serve (Strict.GET_item 1)
         (snd (Strict.serve (Strict.DELETE_item 1)
                 (snd (Strict.run [Strict.POST_items strict_widget] Strict.init)))))
  = HTTPException 404 /\
  fst (Lenient.serve (Lenient.GET_item 1)
         (snd (Lenient.serve (Lenient.DELETE_item 1)
                 (snd (Lenient.run [Lenient.POST_items lenient_widget] Lenient.init)))))
  = HTTPException 404.
Proof.
  split.
  - apply (proj1 get_after_delete_is_404
             (snd (Strict.run [Strict.POST_items strict_widget] Strict.init)) 1).
    vm_compute. reflexivity.
  - apply (proj2 get_after_delete_is_404
             (snd (Lenient.run [Lenient.POST_items lenient_widget] Lenient.init)) 1).
    vm_compute. reflexivity.
Defined.



(** ** Listing *)


Lemma ids_of_values {I} (id : I -> Z) (d : dict I) :
  Forall (fun kv => id (snd kv) = fst kv) d ->
  map id (dict_values d) = dict_keys d.
Proof.
  unfold dict_values, dict_keys. induction 1 as [|[k r] d Hk _ IH]; simpl.
  - reflexivity.
  - simpl in Hk. now rewrite Hk, IH.
Qed.

(** C8: in the strict variant List does not always succeed.  After a
    Create and an Update of the new item with the body [{"name": ""}] (which
    the update schema lets through), the store holds a record with an empty
    name, which [response_model=List[ItemInDB]] refuses: the list route is
    answered 500.  The lenient variant answers the same session's list with
    200. *)
Theorem strict_list_fails_after_empty_name :
  (let st := snd (Strict.run [Strict.POST_items strict_widget;
                              Strict.PUT_item 1 strict_empty_name] Strict.init) in
   option_map Strict.ItemInDB.name (dict_get (Strict.db st) 1) = Some EmptyString /\
   fst (Strict.read_all_items st)
   = Response 200 (Items (dict_values (Strict.db st))) /\
   Strict.serve Strict.GET_items st = (HTTPException 500, st))
  /\
  (let st := snd (Lenient.run
                    [Lenient.POST_items lenient_widget;
                     Lenient.PUT_item 1
                       {| Lenient.ItemUpdate.name := Val EmptyString;
                          Lenient.ItemUpdate.description := Unset;
                          Lenient.ItemUpdate.price := Unset;
                          Lenient.ItemUpdate.is_offer := Unset |}] Lenient.init) in
   Lenient.serve Lenient.GET_items st
   = (Response 200 (Items (dict_values (Lenient.db st))), st)).
Proof. repeat split; vm_compute; reflexivity. Qed.

(** ** The counter *)





(** Every key of a reachable store is below the counter, and a session
    never lowers the counter. *)
Lemma keys_below_counter {V} hist (d : dict V) k :
  keys_follow hist d -> dict_contains d k = true -> k <= max_id hist.
Proof.
  intros Hk Hc. apply max_id_ge, (keys_follow_incl _ _ Hk).
  now apply dict_contains_keys.
Qed.




(** ** The status flag of the strict variant *)

(** C10: in the strict variant, after any session every stored record has
    [is_active] true: a created record has it true, and an update leaves the
    flag of the record it rewrites as it was. *)
Theorem strict_stored_records_are_active :
  (forall rqs k r,
      dict_get (Strict.db (snd (Strict.run rqs Strict.init))) k = Some r ->
      Strict.ItemInDB.is_active r = true)
  /\
  (forall st item r,
      created (fst (Strict.serve (Strict.POST_items item) st)) = Some r ->
      Strict.ItemInDB.is_active r = true)
  /\
  (forall existing_item item_update,
      Strict.ItemInDB.is_active (Strict.apply_updates existing_item item_update)
      = Strict.ItemInDB.is_active existing_item).
Proof.
  split; [|split].
  - intros rqs k r Hg.
    pose proof (strict_inv_active _ _ (strict_reachable_inv rqs)) as Ha.
    rewrite Forall_forall in Ha. apply (Ha (k, r)). now apply dict_get_In.
  - intros st item r. destruct (Strict.ItemCreate.valid item) eqn:Hv.
    + rewrite (strict_serve_post_valid _ _ Hv).
      cbv [Strict.create_item fst created]. simpl. intros [= <-]. reflexivity.
    + rewrite (strict_serve_post_invalid _ _ Hv). discriminate.
  - apply strict_apply_updates_is_active.
Qed.

Lemma strict_stored_records_are_active_witness :
  exists r,
    dict_get (Strict.db (snd (Strict.run
                                [Strict.POST_items strict_widget;
                                 Strict.PUT_item 1 (strict_only_price 2%float)]
                                Strict.init))) 1 = Some r /\
    Strict.ItemInDB.is_active r = true.
Proof.
  eexists. split; [vm_compute; reflexivity|].
  apply (proj1 strict_stored_records_are_active
           [Strict.POST_items strict_widget;
            Strict.PUT_item 1 (strict_only_price 2%float)] 1).
  vm_compute. reflexivity.
Defined.

(** ** Further facts about the dictionary operations *)

Section PyDictMoreFacts.
Context {V : Type}.
Implicit Types (d : dict V) (k : Z) (v : V).

(** Assigning twice to one key is assigning the last value once. *)
Lemma dict_set_set d k v v' : dict_set (dict_set d k v) k v' = dict_set d k v'.
Proof.
  induction d as [|[k0 v0] d IH]; simpl.
  - now rewrite Z.eqb_refl.
  - destruct (Z.eqb k k0) eqn:E; simpl; rewrite E; [reflexivity|].
    now rewrite IH.
Qed.


Lemma dict_del_absent d k : dict_contains d k = false -> dict_del d k = d.
Proof.
  unfold dict_contains. induction d as [|[k0 v0] d IH]; simpl; auto.
  destruct (Z.eqb k k0); [discriminate|]. intros H. now rewrite IH.
Qed.

(** Deleting a key right after it was added gives the dictionary back. *)
Lemma dict_del_set_new d k v :
  dict_contains d k = false -> dict_del (dict_set d k v) k = d.
Proof.
  unfold dict_contains. induction d as [|[k0 v0] d IH]; simpl.
  - now rewrite Z.eqb_refl.
  - destruct (Z.eqb k k0) eqn:E; [discriminate|]. simpl. rewrite E.
    intros H. now rewrite IH.
Qed.


Lemma dict_length_del d k :
  NoDup (dict_keys d) -> dict_contains d k = true ->
  S (List.length (dict_del d k)) = List.length d.
Proof.
  unfold dict_contains. induction d as [|[k0 v0] d IH]; simpl; [discriminate|].
  intros Hnd. inversion Hnd as [|? ? Hk0 Hnd']; subst.
  destruct (Z.eqb_spec k k0) as [->|Hne]; intros H.
  - rewrite dict_del_absent; [reflexivity|].
    destruct (dict_contains d k0) eqn:E; [|reflexivity].
    apply dict_contains_keys in E. contradiction.
  - simpl. now rewrite IH.
Qed.

(** The values left by a deletion, told by a key that each value carries. *)
Lemma dict_values_del (id : V -> Z) d k :
  Forall (fun kv => id (snd kv) = fst kv) d ->
  dict_values (dict_del d k)
  = filter (fun r => negb (Z.eqb k (id r))) (dict_values d).
Proof.
  unfold dict_values. induction 1 as [|[k0 v0] d Hk _ IH]; simpl; [reflexivity|].
  simpl in Hk. rewrite Hk.
  destruct (Z.eqb k k0); simpl; now rewrite IH.
Qed.

End PyDictMoreFacts.

(** ** Repeating and emptying updates *)

Lemma strict_apply_updates_twice e u :
  Strict.apply_updates (Strict.apply_updates e u) u = Strict.apply_updates e u.
Proof.
  destruct u as [n d p]. unfold Strict.apply_updates. simpl.
  destruct n, d, p; reflexivity.
Qed.

Lemma lenient_copy_update_twice e u :
  Lenient.copy_update (Lenient.copy_update e u) u = Lenient.copy_update e u.
Proof.
  destruct u as [n d p o]. unfold Lenient.copy_update. simpl.
  destruct n, d, p, o; reflexivity.
Qed.

(** X1: PUT is idempotent.  Sending the same update to the same id twice
    in a row gives, the second time, the answer of the first time and the
    store the first left.  Both variants, any store, any body, known id or
    not. *)
Theorem update_twice_is_update_once :
  (forall st item_id u,
      Strict.serve (Strict.PUT_item item_id u)
        (snd (Strict.serve (Strict.PUT_item item_id u) st))
      = Strict.serve (Strict.PUT_item item_id u) st)
  /\
  (forall st item_id u,
      Lenient.serve (Lenient.PUT_item item_id u)
        (snd (Lenient.serve (Lenient.PUT_item item_id u) st))
      = Lenient.serve (Lenient.PUT_item item_id u) st).
Proof.
  split; intros st item_id u; cbn [Lenient.serve].
  - destruct (Strict.ItemUpdate.valid u) eqn:Hv.
    + rewrite !(strict_serve_put_valid _ _ _ Hv). cbn [snd].
      unfold Strict.update_item.
      destruct (dict_get (Strict.db st) item_id) as [e|] eqn:E;
        cbn [fst snd Strict.db Strict.next_id].
      * rewrite dict_get_set_eq, strict_apply_updates_twice, dict_set_set.
        reflexivity.
      * now rewrite E.
    + now rewrite !(strict_serve_put_invalid _ _ _ Hv).
  - unfold Lenient.update_item.
    destruct (dict_get (Lenient.db st) item_id) as [e|] eqn:E;
      [destruct (Lenient.negative_price u) eqn:N|];
      cbn [snd Lenient.db Lenient.next_id].
    + now rewrite E.
    + rewrite dict_get_set_eq, lenient_copy_update_twice, dict_set_set.
      reflexivity.
    + now rewrite E.
Qed.

(** X2: DELETE is not idempotent.  Once an id has been deleted, a second
    Delete and any Update of that id raise 404 and change nothing.  Both
    variants, any store. *)
Theorem delete_or_update_after_delete_is_404 :
  (forall st item_id,
      dict_contains (Strict.db st) item_id = true ->
      let st1 := snd (Strict.delete_item item_id st) in
      Strict.delete_item item_id st1 = (HTTPException 404, st1) /\
      (forall u, Strict.update_item item_id u st1 = (HTTPException 404, st1)))
  /\
  (forall st item_id,
      dict_contains (Lenient.db st) item_id = true ->
      let st1 := snd (Lenient.delete_item item_id st) in
      Lenient.delete_item item_id st1 = (HTTPException 404, st1) /\
      (forall u, Lenient.update_item item_id u st1 = (HTTPException 404, st1))).
Proof.
  split; intros st item_id Hc; cbv zeta.
  - assert (Hst1 : snd (Strict.delete_item item_id st)
                   = {| Strict.db := dict_del (Strict.db st) item_id;
                        Strict.next_id := Strict.next_id st |})
      by (unfold Strict.delete_item; now rewrite Hc).
    rewrite Hst1. split.
    + unfold Strict.delete_item. cbn [Strict.db].
      now rewrite dict_contains_del, Z.eqb_refl.
    + intros u. unfold Strict.update_item. cbn [Strict.db].
      now rewrite dict_get_del_eq.
  - assert (Hst1 : snd (Lenient.delete_item item_id st)
                   = {| Lenient.db := dict_del (Lenient.db st) item_id;
                        Lenient.next_id := Lenient.next_id st |})
      by (unfold Lenient.delete_item; now rewrite Hc).
    rewrite Hst1. split.
    + unfold Lenient.delete_item. cbn [Lenient.db].
      now rewrite dict_contains_del, Z.eqb_refl.
    + intros u. unfold Lenient.update_item. cbn [Lenient.db].
      now rewrite dict_get_del_eq.
Qed.

Lemma delete_or_update_after_delete_is_404_witness :
  (let st1 := snd (Strict.delete_item 1
                     (snd (Strict.run [Strict.POST_items strict_widget] Strict.init))) in
   Strict.delete_item 1 st1 = (HTTPException 404, st1))
  /\
  (let st1 := snd (Lenient.delete_item 1
                     (snd (Lenient.run [Lenient.POST_items lenient_widget] Lenient.init))) in
   Lenient.delete_item 1 st1 = (HTTPException 404, st1)).
Proof.
  split.
  - apply (proj1 delete_or_update_after_delete_is_404
             (snd (Strict.run [Strict.POST_items strict_widget] Strict.init)) 1).
    vm_compute. reflexivity.
  - apply (proj2 delete_or_update_after_delete_is_404
             (snd (Lenient.run [Lenient.POST_items lenient_widget] Lenient.init)) 1).
    vm_compute. reflexivity.
Defined.



(** ** What a request can answer, and when it touches the store *)




(** ** How Create, Update and Delete change a reachable store *)

Lemma strict_created_post_state st item r :
  created (fst (Strict.serve (Strict.POST_items item) st)) = Some r ->
  Strict.ItemInDB.id r = Strict.next_id st /\
  snd (Strict.serve (Strict.POST_items item) st)
  = {| Strict.db := dict_set (Strict.db st) (Strict.next_id st) r;
       Strict.next_id := Strict.next_id st + 1 |}.
Proof.
  destruct (Strict.ItemCreate.valid item) eqn:Hv.
  - rewrite (strict_serve_post_valid _ _ Hv).
    unfold Strict.create_item. cbn [fst snd created].
    change (Z.eqb HTTP_201_CREATED HTTP_201_CREATED) with true. cbv iota.
    intros [= <-]. split; reflexivity.
  - rewrite (strict_serve_post_invalid _ _ Hv). discriminate.
Qed.

Lemma lenient_created_post_state st item r :
  created (fst (Lenient.serve (Lenient.POST_items item) st)) = Some r ->
  Lenient.ItemResponse.id r = Lenient.next_id st /\
  snd (Lenient.serve (Lenient.POST_items item) st)
  = {| Lenient.db := dict_set (Lenient.db st) (Lenient.next_id st) r;
       Lenient.next_id := Lenient.next_id st + 1 |}.
Proof.
  cbn [Lenient.serve]. unfold Lenient.create_item.
  destruct (Lenient.validate_item_data item); [discriminate|].
  cbn [fst snd created].
  change (Z.eqb HTTP_201_CREATED HTTP_201_CREATED) with true. cbv iota.
  intros [= <-]. split; reflexivity.
Qed.

(** On a reachable store the counter is not a key. *)
Lemma counter_not_stored {V} hist (d : dict V) n :
  keys_follow hist d -> n = 1 + max_id hist -> dict_contains d n = false.
Proof.
  intros Hk Hn. destruct (dict_contains d n) eqn:E; [|reflexivity].
  pose proof (keys_below_counter _ _ _ Hk E). lia.
Qed.

Lemma dict_get_absent {V} (d : dict V) k :
  dict_contains d k = false -> dict_get d k = None.
Proof. unfold dict_contains. destruct (dict_get d k); [discriminate|reflexivity]. Qed.

Lemma dict_values_app {V} (d d' : dict V) :
  dict_values (d ++ d') = dict_values d ++ dict_values d'.
Proof. apply map_app. Qed.

(** X6: after any session, a successful Create overwrites nothing: its
    identifier was not in the store, every other identifier reads as before,
    and the listing is the old listing with the new record added at the end.
    Both variants. *)
Theorem create_appends_and_keeps_the_rest :
  (forall rqs item r,
      let st := snd (Strict.run rqs Strict.init) in
      created (fst (Strict.serve (Strict.POST_items item) st)) = Some r ->
      let st1 := snd (Strict.serve (Strict.POST_items item) st) in
      dict_get (Strict.db st) (Strict.ItemInDB.id r) = None /\
      (forall k, k <> Strict.ItemInDB.id r ->
                 dict_get (Strict.db st1) k = dict_get (Strict.db st) k) /\
      dict_values (Strict.db st1) = dict_values (Strict.db st) ++ [r])
  /\
  (forall rqs item r,
      let st := snd (Lenient.run rqs Lenient.init) in
      created (fst (Lenient.serve (Lenient.POST_items item) st)) = Some r ->
      let st1 := snd (Lenient.serve (Lenient.POST_items item) st) in
      dict_get (Lenient.db st) (Lenient.ItemResponse.id r) = None /\
      (forall k, k <> Lenient.ItemResponse.id r ->
                 dict_get (Lenient.db st1) k = dict_get (Lenient.db st) k) /\
      dict_values (Lenient.db st1) = dict_values (Lenient.db st) ++ [r]).
Proof.
  split; intros rqs item r st Hc st1; subst st1.
  - destruct (strict_reachable_inv rqs) as [Hn _ Hk _ _]. fold st in Hn, Hk.
    apply strict_created_post_state in Hc. destruct Hc as [Hid ->].
    pose proof (counter_not_stored _ _ _ Hk Hn) as Hfree.
    rewrite Hid. cbn [Strict.db]. split; [now apply dict_get_absent|]. split.
    + intros k Hne. apply dict_get_set_ne. congruence.
    + now rewrite (dict_set_new _ _ _ Hfree), dict_values_app.
  - destruct (lenient_reachable_inv rqs) as [Hn _ Hk _]. fold st in Hn, Hk.
    apply lenient_created_post_state in Hc. destruct Hc as [Hid ->].
    pose proof (counter_not_stored _ _ _ Hk Hn) as Hfree.
    rewrite Hid. cbn [Lenient.db]. split; [now apply dict_get_absent|]. split.
    + intros k Hne. apply dict_get_set_ne. congruence.
    + now rewrite (dict_set_new _ _ _ Hfree), dict_values_app.
Qed.

Lemma create_appends_and_keeps_the_rest_witness :
  (exists r,
      dict_values
        (Strict.db (snd (Strict.serve (Strict.POST_items strict_bolt)
                           (snd (Strict.run [Strict.POST_items strict_widget]
                                   Strict.init)))))
      = dict_values (Strict.db (snd (Strict.run [Strict.POST_items strict_widget]
                                       Strict.init))) ++ [r])
  /\
  (exists r,
      dict_values
        (Lenient.db (snd (Lenient.serve (Lenient.POST_items lenient_bolt)
                            (snd (Lenient.run [Lenient.POST_items lenient_widget]
                                    Lenient.init)))))
      = dict_values (Lenient.db (snd (Lenient.run [Lenient.POST_items lenient_widget]
                                        Lenient.init))) ++ [r]).
Proof.
  split; eexists.
  - apply (proj1 create_appends_and_keeps_the_rest
             [Strict.POST_items strict_widget] strict_bolt).
    vm_compute. reflexivity.
  - apply (proj2 create_appends_and_keeps_the_rest
             [Lenient.POST_items lenient_widget] lenient_bolt).
    vm_compute. reflexivity.
Defined.

(** X7: after any session, deleting a stored id takes exactly that record
    away: every other id reads as before, the listing is the old listing
    without the record of that id, in the same order and one shorter, and the
    counter stays.  Both variants. *)
Theorem delete_removes_exactly_one_record :
  (forall rqs item_id,
      let st := snd (Strict.run rqs Strict.init) in
      dict_contains (Strict.db st) item_id = true ->
      let st1 := snd (Strict.serve (Strict.DELETE_item item_id) st) in
      (forall k, k <> item_id ->
                 dict_get (Strict.db st1) k = dict_get (Strict.db st) k) /\
      dict_values (Strict.db st1)
      = filter (fun r => negb (Z.eqb item_id (Strict.ItemInDB.id r)))
               (dict_values (Strict.db st)) /\
      S (List.length (dict_values (Strict.db st1)))
      = List.length (dict_values (Strict.db st)) /\
      Strict.next_id st1 = Strict.next_id st)
  /\
  (forall rqs item_id,
      let st := snd (Lenient.run rqs Lenient.init) in
      dict_contains (Lenient.db st) item_id = true ->
      let st1 := snd (Lenient.serve (Lenient.DELETE_item item_id) st) in
      (forall k, k <> item_id ->
                 dict_get (Lenient.db st1) k = dict_get (Lenient.db st) k) /\
      dict_values (Lenient.db st1)
      = filter (fun r => negb (Z.eqb item_id (Lenient.ItemResponse.id r)))
               (dict_values (Lenient.db st)) /\
      S (List.length (dict_values (Lenient.db st1)))
      = List.length (dict_values (Lenient.db st)) /\
      Lenient.next_id st1 = Lenient.next_id st).
Proof.
  split; intros rqs item_id st Hc st1; subst st1.
  - destruct (strict_reachable_inv rqs) as [_ Hnd Hk Hi _]. fold st in Hk, Hi.
    rewrite strict_serve_delete. unfold Strict.delete_item. rewrite Hc.
    cbn [snd Strict.db Strict.next_id]. repeat split.
    + intros k Hne. apply dict_get_del_ne. congruence.
    + now apply dict_values_del.
    + unfold dict_values. rewrite !length_map. apply dict_length_del; auto.
      now apply (keys_follow_NoDup _ _ Hnd).
  - destruct (lenient_reachable_inv rqs) as [_ Hnd Hk Hi]. fold st in Hk, Hi.
    cbn [Lenient.serve]. unfold Lenient.delete_item. rewrite Hc.
    cbn [snd Lenient.db Lenient.next_id]. repeat split.
    + intros k Hne. apply dict_get_del_ne. congruence.
    + now apply dict_values_del.
    + unfold dict_values. rewrite !length_map. apply dict_length_del; auto.
      now apply (keys_follow_NoDup _ _ Hnd).
Qed.

Lemma delete_removes_exactly_one_record_witness :
  Strict.next_id
    (snd (Strict.serve (Strict.DELETE_item 1)
            (snd (Strict.run [Strict.POST_items strict_widget;
                              Strict.POST_items strict_bolt] Strict.init))))
  = Strict.next_id (snd (Strict.run [Strict.POST_items strict_widget;
                                     Strict.POST_items strict_bolt] Strict.init))
  /\
  Lenient.next_id
    (snd (Lenient.serve (Lenient.DELETE_item 1)
            (snd (Lenient.run [Lenient.POST_items lenient_widget;
                               Lenient.POST_items lenient_bolt] Lenient.init))))
  = Lenient.next_id (snd (Lenient.run [Lenient.POST_items lenient_widget;
                                       Lenient.POST_items lenient_bolt] Lenient.init)).
Proof.
  split.
  - apply (proj1 delete_removes_exactly_one_record
             [Strict.POST_items strict_widget; Strict.POST_items strict_bolt] 1).
    vm_compute. reflexivity.
  - apply (proj2 delete_removes_exactly_one_record
             [Lenient.POST_items lenient_widget; Lenient.POST_items lenient_bolt] 1).
    vm_compute. reflexivity.
Defined.

(** X8: after any session, a PUT, whatever its id, its body and its
    answer, leaves the listing with the same identifiers in the same order:
    an update rewrites a record in place and never moves, adds or drops one.
    Both variants. *)
Theorem update_keeps_listing_order :
  (forall rqs item_id u,
      let st := snd (Strict.run rqs Strict.init) in
      let st1 := snd (Strict.serve (Strict.PUT_item item_id u) st) in
      map Strict.ItemInDB.id (dict_values (Strict.db st1))
      = map Strict.ItemInDB.id (dict_values (Strict.db st)))
  /\
  (forall rqs item_id u,
      let st := snd (Lenient.run rqs Lenient.init) in
      let st1 := snd (Lenient.serve (Lenient.PUT_item item_id u) st) in
      map Lenient.ItemResponse.id (dict_values (Lenient.db st1))
      = map Lenient.ItemResponse.id (dict_values (Lenient.db st))).
Proof.
  split; intros rqs item_id u st st1; subst st1.
  - pose proof (strict_reachable_inv rqs) as Hinv. fold st in Hinv.
    rewrite strict_serve_snd. cbn [Strict.dispatch].
    destruct (Strict.ItemUpdate.valid u); [|reflexivity].
    pose proof (strict_update_item_inv _ _ item_id u Hinv) as Hinv1.
    rewrite (ids_of_values _ _ (strict_inv_ids _ _ Hinv1)).
    rewrite (ids_of_values _ _ (strict_inv_ids _ _ Hinv)).
    unfold Strict.update_item.
    destruct (dict_get (Strict.db st) item_id) as [e|] eqn:E; [|reflexivity].
    cbn [snd Strict.db]. apply dict_keys_set_old.
    unfold dict_contains. now rewrite E.
  - pose proof (lenient_reachable_inv rqs) as Hinv. fold st in Hinv.
    cbn [Lenient.serve].
    pose proof (lenient_update_item_inv _ _ item_id u Hinv) as Hinv1.
    rewrite (ids_of_values _ _ (lenient_inv_ids _ _ Hinv1)).
    rewrite (ids_of_values _ _ (lenient_inv_ids _ _ Hinv)).
    unfold Lenient.update_item.
    destruct (dict_get (Lenient.db st) item_id) as [e|] eqn:E; [|reflexivity].
    destruct (Lenient.negative_price u); [reflexivity|].
    cbn [snd Lenient.db]. apply dict_keys_set_old.
    unfold dict_contains. now rewrite E.
Qed.

(** X9: after any session, deleting the item a Create has just made gives
    back the mapping as it was before the Create; only the counter has moved,
    by one.  Both variants. *)
Theorem delete_undoes_create_but_not_counter :
  (forall rqs item r,
      let st := snd (Strict.run rqs Strict.init) in
      created (fst (Strict.serve (Strict.POST_items item) st)) = Some r ->
      let st1 := snd (Strict.serve (Strict.POST_items item) st) in
      Strict.serve (Strict.DELETE_item (Strict.ItemInDB.id r)) st1
      = (Response 200 (Message "Item deleted"%string),
         {| Strict.db := Strict.db st; Strict.next_id := Strict.next_id st + 1 |}))
  /\
  (forall rqs item r,
      let st := snd (Lenient.run rqs Lenient.init) in
      created (fst (Lenient.serve (Lenient.POST_items item) st)) = Some r ->
      let st1 := snd (Lenient.serve (Lenient.POST_items item) st) in
      Lenient.serve (Lenient.DELETE_item (Lenient.ItemResponse.id r)) st1
      = (Response 204 NoContent,
         {| Lenient.db := Lenient.db st; Lenient.next_id := Lenient.next_id st + 1 |})).
Proof.
  split; intros rqs item r st Hc st1; subst st1.
  - destruct (strict_reachable_inv rqs) as [Hn _ Hk _ _]. fold st in Hn, Hk.
    apply strict_created_post_state in Hc. destruct Hc as [Hid ->].
    pose proof (counter_not_stored _ _ _ Hk Hn) as Hfree.
    rewrite Hid, strict_serve_delete. unfold Strict.delete_item.
    cbn [Strict.db Strict.next_id].
    rewrite dict_contains_set, Z.eqb_refl, (dict_del_set_new _ _ _ Hfree).
    reflexivity.
  - destruct (lenient_reachable_inv rqs) as [Hn _ Hk _]. fold st in Hn, Hk.
    apply lenient_created_post_state in Hc. destruct Hc as [Hid ->].
    pose proof (counter_not_stored _ _ _ Hk Hn) as Hfree.
    rewrite Hid. cbn [Lenient.serve]. unfold Lenient.delete_item.
    cbn [Lenient.db Lenient.next_id].
    rewrite dict_contains_set, Z.eqb_refl, (dict_del_set_new _ _ _ Hfree).
    reflexivity.
Qed.

Lemma delete_undoes_create_but_not_counter_witness :
  (exists r,
      created (fst (Strict.serve (Strict.POST_items strict_bolt)
                      (snd (Strict.run [Strict.POST_items strict_widget] Strict.init))))
      = Some r /\
      Strict.db
        (snd (Strict.serve (Strict.DELETE_item (Strict.ItemInDB.id r))
                (snd (Strict.serve (Strict.POST_items strict_bolt)
                        (snd (Strict.run [Strict.POST_items strict_widget]
                                Strict.init))))))
      = Strict.db (snd (Strict.run [Strict.POST_items strict_widget] Strict.init)))
  /\
  (exists r,
      created (fst (Lenient.serve (Lenient.POST_items lenient_bolt)
                      (snd (Lenient.run [Lenient.POST_items lenient_widget]
                              Lenient.init))))
      = Some r /\
      Lenient.db
        (snd (Lenient.serve (Lenient.DELETE_item (Lenient.ItemResponse.id r))
                (snd (Lenient.serve (Lenient.POST_items lenient_bolt)
                        (snd (Lenient.run [Lenient.POST_items lenient_widget]
                                Lenient.init))))))
      = Lenient.db (snd (Lenient.run [Lenient.POST_items lenient_widget]
                           Lenient.init))).
Proof.
  split; eexists; (split; [vm_compute; reflexivity|]).
  - exact (f_equal (fun p => Strict.db (snd p))
             (proj1 delete_undoes_create_but_not_counter
                [Strict.POST_items strict_widget] strict_bolt _ eq_refl)).
  - exact (f_equal (fun p => Lenient.db (snd p))
             (proj2 delete_undoes_create_but_not_counter
                [Lenient.POST_items lenient_widget] lenient_bolt _ eq_refl)).
Defined.

(** ** The identifiers of a session are 1, 2, 3, ... *)








(** ** Stored prices *)

Lemma strict_run_preserves (Q : Strict.state -> Prop) :
  (forall rq st, Q st -> Q (snd (Strict.serve rq st))) ->
  forall rqs st, Q st -> Q (snd (Strict.run rqs st)).
Proof.
  intros Hstep. induction rqs as [|rq rqs IH]; intros st HQ; cbn [Strict.run].
  - exact HQ.
  - specialize (Hstep rq st HQ). destruct (Strict.serve rq st) as [r st1].
    specialize (IH st1 Hstep). destruct (Strict.run rqs st1) as [rs st2].
    exact IH.
Qed.

Lemma lenient_run_preserves (Q : Lenient.state -> Prop) :
  (forall rq st, Q st -> Q (snd (Lenient.serve rq st))) ->
  forall rqs st, Q st -> Q (snd (Lenient.run rqs st)).
Proof.
  intros Hstep. induction rqs as [|rq rqs IH]; intros st HQ; cbn [Lenient.run].
  - exact HQ.
  - specialize (Hstep rq st HQ). destruct (Lenient.serve rq st) as [r st1].
    specialize (IH st1 Hstep). destruct (Lenient.run rqs st1) as [rs st2].
    exact IH.
Qed.

Definition strict_prices_positive (st : Strict.state) : Prop :=
  Forall (fun kv => PrimFloat.ltb 0 (Strict.ItemInDB.price (snd kv)) = true)
         (Strict.db st).

Definition lenient_prices_not_negative (st : Lenient.state) : Prop :=
  Forall (fun kv => forall p, Lenient.ItemResponse.price (snd kv) = Some p ->
                              PrimFloat.ltb p 0 = false)
         (Lenient.db st).

Lemma strict_serve_prices rq st :
  strict_prices_positive st -> strict_prices_positive (snd (Strict.serve rq st)).
Proof.
  unfold strict_prices_positive. intros HQ. rewrite strict_serve_snd.
  destruct rq as [item| |item_id|item_id u|item_id]; cbn [Strict.dispatch].
  - destruct (Strict.ItemCreate.valid item) eqn:Hv; [|exact HQ].
    apply andb_true_iff in Hv. destruct Hv as [_ Hp].
    unfold Strict.create_item. cbn [snd Strict.db].
    now apply Forall_dict_set.
  - exact HQ.
  - unfold Strict.read_item. now destruct (dict_get (Strict.db st) item_id).
  - destruct (Strict.ItemUpdate.valid u) eqn:Hv; [|exact HQ].
    unfold Strict.update_item.
    destruct (dict_get (Strict.db st) item_id) as [e|] eqn:E; [|exact HQ].
    cbn [snd Strict.db]. apply Forall_dict_set; [exact HQ|]. cbn [snd].
    pose proof (dict_get_In _ _ _ E) as Hin.
    rewrite Forall_forall in HQ. specialize (HQ _ Hin). cbn [snd] in HQ.
    pose proof (strict_apply_updates_fields e u) as (_ & _ & Hp).
    unfold Strict.ItemUpdate.valid in Hv. unfold kept_or_sent in Hp.
    destruct (Strict.ItemUpdate.price u); congruence.
  - unfold Strict.delete_item.
    destruct (dict_contains (Strict.db st) item_id); [|exact HQ].
    cbn [snd Strict.db]. now apply Forall_dict_del.
Qed.

Lemma lenient_serve_prices rq st :
  lenient_prices_not_negative st ->
  lenient_prices_not_negative (snd (Lenient.serve rq st)).
Proof.
  unfold lenient_prices_not_negative. intros HQ.
  destruct rq as [item| |item_id|item_id u|item_id]; cbn [Lenient.serve].
  - unfold Lenient.create_item, Lenient.validate_item_data.
    destruct (PrimFloat.ltb (Lenient.ItemCreate.price item) 0) eqn:Hp; [exact HQ|].
    cbn [snd Lenient.db]. apply Forall_dict_set; [exact HQ|]. cbn [snd].
    intros p [= <-]. exact Hp.
  - exact HQ.
  - unfold Lenient.read_item. now destruct (dict_get (Lenient.db st) item_id).
  - unfold Lenient.update_item.
    destruct (dict_get (Lenient.db st) item_id) as [e|] eqn:E; [|exact HQ].
    destruct (Lenient.negative_price u) eqn:Hv; [exact HQ|].
    cbn [snd Lenient.db]. apply Forall_dict_set; [exact HQ|]. cbn [snd].
    pose proof (dict_get_In _ _ _ E) as Hin.
    rewrite Forall_forall in HQ. specialize (HQ _ Hin). cbn [snd] in HQ.
    unfold Lenient.negative_price in Hv.
    unfold Lenient.copy_update, Lenient.updated. cbn [Lenient.ItemResponse.price].
    destruct (Lenient.ItemUpdate.price u) as [| |q].
    + exact HQ.
    + discriminate.
    + intros p [= <-]. exact Hv.
  - unfold Lenient.delete_item.
    destruct (dict_contains (Lenient.db st) item_id); [|exact HQ].
    cbn [snd Lenient.db]. now apply Forall_dict_del.
Qed.

(** X11: the price rule is an invariant of the store.  After any session,
    every record stored by the strict variant has a price above 0, and every
    record stored by the lenient variant has a price that is not below 0
    (or, after a [null] update, no price): Create and Update check every
    price they store, and nothing else writes one. *)
Theorem stored_prices_respect_the_price_rule :
  (forall rqs k r,
      dict_get (Strict.db (snd (Strict.run rqs Strict.init))) k = Some r ->
      PrimFloat.ltb 0 (Strict.ItemInDB.price r) = true)
  /\
  (forall rqs k r p,
      dict_get (Lenient.db (snd (Lenient.run rqs Lenient.init))) k = Some r ->
      Lenient.ItemResponse.price r = Some p ->
      PrimFloat.ltb p 0 = false).
Proof.
  split.
  - intros rqs k r Hg.
    assert (HQ : strict_prices_positive (snd (Strict.run rqs Strict.init))).
    { apply strict_run_preserves; [apply strict_serve_prices|]. constructor. }
    unfold strict_prices_positive in HQ. rewrite Forall_forall in HQ.
    apply (HQ (k, r)). now apply dict_get_In.
  - intros rqs k r p Hg.
    assert (HQ : lenient_prices_not_negative (snd (Lenient.run rqs Lenient.init))).
    { apply lenient_run_preserves; [apply lenient_serve_prices|]. constructor. }
    unfold lenient_prices_not_negative in HQ. rewrite Forall_forall in HQ.
    apply (HQ (k, r)). now apply dict_get_In.
Qed.

Lemma stored_prices_respect_the_price_rule_witness :
  PrimFloat.ltb 0 2%float = true /\ PrimFloat.ltb 9.5%float 0 = false.
Proof.
  split.
  - apply (proj1 stored_prices_respect_the_price_rule
             [Strict.POST_items strict_widget;
              Strict.PUT_item 1 (strict_only_price 2%float)] 1
             {| Strict.ItemInDB.name := "Widget"%string;
                Strict.ItemInDB.description := None;
                Strict.ItemInDB.price := 2%float;
                Strict.ItemInDB.id := 1;
                Strict.ItemInDB.is_active := true |}).
    vm_compute. reflexivity.
  - apply (proj2 stored_prices_respect_the_price_rule
             [Lenient.POST_items lenient_widget;
              Lenient.PUT_item 1 lenient_only_description] 1
             {| Lenient.ItemResponse.id := 1;
                Lenient.ItemResponse.name := Some "Widget"%string;
                Lenient.ItemResponse.description := Some "new"%string;
                Lenient.ItemResponse.price := Some 9.5%float;
                Lenient.ItemResponse.is_offer := None |} 9.5%float).
    + vm_compute. reflexivity.
    + reflexivity.
Defined.

(** ** The size of the store *)











(** ** Which error wins *)

(** X13: when a PUT has both an unknown id and a bad price, the two
    variants disagree on the error.  The strict variant refuses the body
    first: a price that is not above 0 is answered 422 when it is a finite
    number, and 500 when it is NaN or an infinity (the 422 cannot be
    written), whether the id is known or not.  The lenient variant looks the
    id up first: an unknown id is answered 404 even when the price is below
    0.  Either way the store is left as it was. *)
Theorem update_error_precedence :
  (forall st item_id u p,
      Strict.ItemUpdate.price u = Val p ->
      PrimFloat.ltb 0 p = false ->
      Strict.serve (Strict.PUT_item item_id u) st
      = (HTTPException (if PrimFloat.is_finite p then 422 else 500), st))
  /\
  (forall st item_id u p,
      dict_contains (Lenient.db st) item_id = false ->
      Lenient.ItemUpdate.price u = Val p ->
      PrimFloat.ltb p 0 = true ->
      Lenient.serve (Lenient.PUT_item item_id u) st = (HTTPException 404, st)).
Proof.
  split; intros st item_id u p.
  - intros Hp Hbad.
    assert (Hv : Strict.ItemUpdate.valid u = false)
      by (unfold Strict.ItemUpdate.valid; now rewrite Hp).
    rewrite (strict_serve_put_invalid _ _ _ Hv).
    unfold Strict.ItemUpdate.rejection. rewrite Hp, Hbad. reflexivity.
  - intros Hc _ _. cbn [Lenient.serve]. unfold Lenient.update_item.
    now rewrite (dict_get_absent _ _ Hc).
Qed.

Lemma update_error_precedence_witness :
  Strict.serve (Strict.PUT_item 7 (strict_only_price (-1)%float))
    (snd (Strict.run [Strict.POST_items strict_widget] Strict.init))
  = (HTTPException 422,
     snd (Strict.run [Strict.POST_items strict_widget] Strict.init))
  /\
  Strict.serve (Strict.PUT_item 1 (strict_only_price PrimFloat.nan))
    (snd (Strict.run [Strict.POST_items strict_widget] Strict.init))
  = (HTTPException 500,
     snd (Strict.run [Strict.POST_items strict_widget] Strict.init))
  /\
  Lenient.serve (Lenient.PUT_item 7 (lenient_only_price (-1)%float))
    (snd (Lenient.run [Lenient.POST_items lenient_widget] Lenient.init))
  = (HTTPException 404,
     snd (Lenient.run [Lenient.POST_items lenient_widget] Lenient.init)).
Proof.
  split; [|split].
  - apply (proj1 update_error_precedence
             (snd (Strict.run [Strict.POST_items strict_widget] Strict.init)) 7
             (strict_only_price (-1)%float) (-1)%float).
    + reflexivity.
    + vm_compute. reflexivity.
  - apply (proj1 update_error_precedence
             (snd (Strict.run [Strict.POST_items strict_widget] Strict.init)) 1
             (strict_only_price PrimFloat.nan) PrimFloat.nan).
    + reflexivity.
    + vm_compute. reflexivity.
  - apply (proj2 update_error_precedence
             (snd (Lenient.run [Lenient.POST_items lenient_widget] Lenient.init)) 7
             (lenient_only_price (-1)%float) (-1)%float).
    + vm_compute. reflexivity.
    + reflexivity.
    + vm_compute. reflexivity.
Defined.

(** ** The listing *)




